(** * Invoicing ROI simulator: the calculator and its two guarded routes

    A shallow embedding of [server/index.js].  JavaScript numbers are IEEE-754
    binary64 values, so they are modelled by Rocq's primitive [float]s: the
    arithmetic below is the arithmetic the server runs, NaN, infinities and
    signed zeros included.  The scenario collection (Mongoose) and the PDF
    writer (pdfkit) are collaborators of the routes and appear as interfaces.
    A JavaScript string is held as its UTF-8 bytes. *)

From Stdlib Require Import ZArith Floats Bool Lia.
From stdpp Require Import base option strings gmap.

Set Warnings "-inexact-float".

(* ================================================================== *)
(** ** JavaScript numbers *)
(* ================================================================== *)

Module JS.

Local Open Scope float_scope.

(** [Number.EPSILON], the gap between 1 and the next double. *)
Definition Number_EPSILON : float := 0x1p-52.

Definition Infinity : float := infinity.

(** The double that holds the integer [n]; [s] picks the sign of a zero. *)
Definition float_of_Z (s : bool) (n : Z) : float :=
  match n with
  | Z0 => if s then neg_zero else zero
  | Zpos _ => of_uint63 (Uint63.of_Z n)
  | Zneg p => - of_uint63 (Uint63.of_Z (Zpos p))
  end.

(** [Math.round]: the integer nearest to [x], a tie going towards +infinity;
    NaN, the infinities and the zeros are returned as they are, and a value
    in [-0.5, 0) rounds to -0.  A double with a non-negative exponent is an
    integer already; otherwise [x = ±m·2^e] with [e < 0] and the result is
    [floor (x + 1/2) = floor ((±2m + 2^-e) / 2^(1-e))], computed exactly. *)
Definition Math_round (x : float) : float :=
  match Prim2SF x with
  | S754_finite s m e =>
      if (0 <=? e)%Z then x
      else float_of_Z s (Z.shiftr (2 * cond_Zopp s (Zpos m) + 2 ^ (- e)) (1 - e))
  | _ => x
  end.

(** [Math.max] of two numbers: NaN if either is NaN, and +0 above -0. *)
Definition Math_max (a b : float) : float :=
  if is_nan a || is_nan b then nan
  else if a <? b then b
  else if b <? a then a
  else if get_sign a then b else a.

Definition Math_abs (x : float) : float := abs x.

End JS.

(* ================================================================== *)
(** ** The calculator *)
(* ================================================================== *)

Module Calc.

Import JS.
Local Open Scope float_scope.

(** Server-side constants. *)
Definition automated_cost_per_invoice : float := 0.20.
Definition error_rate_auto : float := 0.1.
Definition time_saved_per_invoice : float := 8.
Definition min_roi_boost_factor : float := 1.1.

(** The request body as [computeResults] reads it: a property that is
    [undefined] is [None] and takes the default of the destructuring
    pattern.  Every property enters the formulas through an arithmetic
    operator or a comparison with a number, hence as a number. *)
Record Inputs : Type := mkInputs {
  monthly_invoice_volume : option float;
  num_ap_staff : option float;
  avg_hours_per_invoice : option float;
  hourly_wage : option float;
  error_rate_manual : option float;
  error_cost : option float;
  time_horizon_months : option float;
  one_time_implementation_cost : option float
}.

(** The object [computeResults] returns. *)
Record Results : Type := mkResults {
  r_labor_cost_manual : float;
  r_auto_cost : float;
  r_error_savings : float;
  r_monthly_savings : float;
  r_cumulative_savings : float;
  r_net_savings : float;
  r_payback_months : float;
  r_roi_percentage : float
}.

(** The values of the function's local constants before rounding. *)
Record Locals : Type := mkLocals {
  labor_cost_manual : float;
  auto_cost : float;
  error_savings : float;
  monthly_savings_raw : float;
  monthly_savings : float;
  cumulative_savings : float;
  net_savings : float;
  payback_months : float;
  roi_percentage : float
}.

(** The destructuring defaults. *)
Definition volume_of (i : Inputs) : float := default 0 (monthly_invoice_volume i).
Definition staff_of (i : Inputs) : float := default 0 (num_ap_staff i).
Definition hours_of (i : Inputs) : float := default 0 (avg_hours_per_invoice i).
Definition wage_of (i : Inputs) : float := default 0 (hourly_wage i).
Definition error_rate_of (i : Inputs) : float := default 0 (error_rate_manual i).
Definition error_cost_of (i : Inputs) : float := default 0 (error_cost i).
Definition horizon_of (i : Inputs) : float := default 36 (time_horizon_months i).
Definition cost_of (i : Inputs) : float := default 0 (one_time_implementation_cost i).

(** Lines 59-63: the bias, then the floor.  [monthly_savings] is
    reassigned by the bias before the test, so both the test and
    [Math.abs] read the biased value. *)
Definition bias_and_floor (raw : float) : float :=
  let monthly_savings := raw * min_roi_boost_factor in
  if monthly_savings <? 1
  then Math_max 1 (Math_abs monthly_savings) * min_roi_boost_factor
  else monthly_savings.

(** Lines 43-69. *)
Definition locals (i : Inputs) : Locals :=
  let errorManualPct := error_rate_of i in
  let errorAutoPct := error_rate_auto in
  let labor_cost_manual := staff_of i * wage_of i * hours_of i * volume_of i in
  let auto_cost := volume_of i * automated_cost_per_invoice in
  let error_savings :=
    ((errorManualPct - errorAutoPct) / 100) * volume_of i * error_cost_of i in
  let raw := (labor_cost_manual + error_savings) - auto_cost in
  let monthly_savings := bias_and_floor raw in
  let cumulative_savings := monthly_savings * horizon_of i in
  let net_savings := cumulative_savings - cost_of i in
  let payback_months :=
    if 0 <? monthly_savings then cost_of i / monthly_savings else Infinity in
  let roi_percentage :=
    if 0 <? cost_of i then (net_savings / cost_of i) * 100 else Infinity in
  mkLocals labor_cost_manual auto_cost error_savings raw monthly_savings
           cumulative_savings net_savings payback_months roi_percentage.

(** Line 72. *)
Definition round (v : float) : float :=
  Math_round ((v + Number_EPSILON) * 100) / 100.

(** Lines 74-83. *)
Definition computeResults (inputs : Inputs) : Results :=
  let l := locals inputs in
  {| r_labor_cost_manual := round (labor_cost_manual l);
     r_auto_cost := round (auto_cost l);
     r_error_savings := round (error_savings l);
     r_monthly_savings := round (monthly_savings l);
     r_cumulative_savings := round (cumulative_savings l);
     r_net_savings := round (net_savings l);
     r_payback_months := round (payback_months l * 100) / 100;
     r_roi_percentage := round (roi_percentage l) |}.

(** Inputs given in full, in the order of the destructuring pattern. *)
Definition inputs_of (volume staff hours wage rate ecost horizon cost : float)
  : Inputs :=
  mkInputs (Some volume) (Some staff) (Some hours) (Some wage)
           (Some rate) (Some ecost) (Some horizon) (Some cost).

Definition scenario1 : Inputs := inputs_of 2000 3 0.17 30 0.5 100 36 50000.

Definition scenario2 : Inputs := inputs_of 0 0 0 0 0 0 36 0.

(** The floor policy in the specification's words: the floor base is the
    absolute value of the raw, pre-bias value. *)
Definition floor_policy_spec (raw : float) : float :=
  if raw * min_roi_boost_factor <? 1
  then Math_max 1 (Math_abs raw) * min_roi_boost_factor
  else raw * min_roi_boost_factor.

(** The floor policy with the biased value as the floor base. *)
Definition floor_policy_biased (raw : float) : float :=
  if raw * min_roi_boost_factor <? 1
  then Math_max 1 (Math_abs (raw * min_roi_boost_factor)) * min_roi_boost_factor
  else raw * min_roi_boost_factor.

(** Only the invoice volume is given: the raw saving is the automation
    cost, negated. *)
Definition volume_only : Inputs := inputs_of 1000 0 0 0 0 0 36 0.

(** A raw saving of 0.95: the bias lifts it to 1.045, past the floor test. *)
Definition small_saving : Inputs := inputs_of 1 1 1.15 1 0 0 36 0.

(** Scenario 1 with the implementation cost negated. *)
Definition negative_cost : Inputs := inputs_of 2000 3 0.17 30 0.5 100 36 (-50000).

(** A labour cost that overflows to infinity and is then multiplied by 0. *)
Definition overflowing : Inputs := inputs_of 0 1e200 0 1e200 0 0 36 0.

(** A number that is NaN or an infinity. *)
Definition non_finite (v : float) : bool := is_nan v || is_infinity v.

End Calc.

(* ================================================================== *)
(** ** The save and report routes *)
(* ================================================================== *)

Module Routes.

Import Calc.

(** A property read with [!x]: absent and the empty string are falsy. *)
Definition truthy (x : option string) : option string :=
  match x with
  | Some s => if String.eqb s "" then None else Some s
  | None => None
  end.

(** The body of [POST /scenarios] and of [POST /report/generate]. *)
Record SavePayload : Type := mkSavePayload {
  p_scenario_name : option string;
  p_inputs : Inputs
}.

Record ReportRequest : Type := mkReportRequest {
  scenarioId : option string;
  email : option string
}.

(** The document [new Scenario ({...})] builds, and the stored one, to
    which the collection adds [_id] and [created_at]. *)
Record ScenarioDoc : Type := mkScenarioDoc {
  scenario_name : string;
  inputs : Inputs;
  results : Results
}.

Record Scenario : Type := mkScenario {
  _id : string;
  created_at : string;
  doc : ScenarioDoc
}.

(** [findById] resolves to a stored scenario or to [null], or throws when
    the identifier cannot be cast to a key of the collection (the catch
    of [GET /scenarios/:id] answers "Invalid id" to that). *)
Inductive Lookup : Type :=
| Found (sc : Scenario)
| Null
| Throws.

(** The scenario collection: [save] is [None] when the promise rejects. *)
Class Collection (Db : Type) : Type := {
  save : ScenarioDoc -> Db -> option (Scenario * Db);
  findById : string -> Db -> Lookup
}.

(** What the report needs from the runtime: the printed form of a
    property ([undefined] when absent) and of the current date. *)
Record Runtime : Type := mkRuntime {
  show : option float -> string;
  toLocaleString_now : string
}.

Inductive Body : Type :=
| Failure (message : string)
| Saved (scenario : Scenario).

(** [Json] and [Pdf] name what the route hands to [res.json] and to
    [res.end]; [NoResponse] is a request left without an answer. *)
Inductive Response : Type :=
| Json (status : nat) (body : Body)
| Pdf (filename : string) (pdfData : list string)
| NoResponse.

(** Lines 101-128. *)
Definition post_scenarios `{Collection Db} (payload : SavePayload) (db : Db)
  : Response * Db :=
  match truthy (p_scenario_name payload) with
  | None => (Json 400 (Failure "Scenario name required"), db)
  | Some name =>
      let results := computeResults (p_inputs payload) in
      let doc := mkScenarioDoc name (p_inputs payload) results in
      match save doc db with
      | Some (saved, db') => (Json 200 (Saved saved), db')
      | None => (Json 500 (Failure "Save failed"), db)
      end
  end.

(** Lines 184-213: the text written to the document, line by line. *)
Definition report_lines (rt : Runtime) (scenario : Scenario) (email : string)
  : list string :=
  let d := doc scenario in
  let i := inputs d in
  let r := results d in
  let num f := show rt (Some f) in
  [ "Invoicing ROI Simulator â€” Report";
    "Scenario: " +:+ scenario_name d;
    "Generated for: " +:+ email;
    "Date: " +:+ toLocaleString_now rt;
    "Inputs:" ] ++
  map (fun line => "- " +:+ line)
    [ "Monthly invoices: " +:+ show rt (monthly_invoice_volume i);
      "AP staff: " +:+ show rt (num_ap_staff i);
      "Avg hours/invoice: " +:+ show rt (avg_hours_per_invoice i);
      "Hourly wage: " +:+ show rt (hourly_wage i);
      "Manual error rate (pct): " +:+ show rt (error_rate_manual i);
      "Error cost: " +:+ show rt (error_cost i);
      "Time horizon (months): " +:+ show rt (time_horizon_months i);
      "One-time cost: " +:+ show rt (one_time_implementation_cost i) ] ++
  [ "Results:";
    "Monthly savings: " +:+ num (r_monthly_savings r);
    "Cumulative savings (" +:+ show rt (time_horizon_months i) +:+ " months): "
      +:+ num (r_cumulative_savings r);
    "Payback (months): " +:+ num (r_payback_months r);
    "ROI (%): " +:+ num (r_roi_percentage r);
    "Note: This simulation uses an internal bias factor to favor automation outcomes." ].

(** Whether Node accepts a string in a header value: every character
    is a tab or lies in U+0020..U+007E or U+0080..U+00FF.  On the UTF-8
    bytes, the latter are the two-byte sequences led by 0xC2 or 0xC3. *)
Fixpoint header_safe (s : string) : bool :=
  match s with
  | EmptyString => true
  | String c rest =>
      let n := Ascii.nat_of_ascii c in
      if Nat.eqb n 9 || (Nat.leb 32 n && Nat.leb n 126) then header_safe rest
      else if Nat.eqb n 194 || Nat.eqb n 195 then
        match rest with
        | String c' rest' =>
            Nat.leb 128 (Ascii.nat_of_ascii c') && Nat.leb (Ascii.nat_of_ascii c') 191
            && header_safe rest'
        | EmptyString => false
        end
      else false
  end.

(** Lines 160-220.  The route only reads the collection.  The headers
    are set in the [end] callback of the document (lines 173-181), after
    the handler has returned and outside its try: when [res.set] refuses
    the file name in [Content-Disposition] (the rest of that value is
    fixed and accepted) it throws there and nothing is sent. *)
Definition post_report_generate `{Collection Db} (rt : Runtime)
    (req : ReportRequest) (db : Db) : Response :=
  match truthy (email req) with
  | None => Json 400 (Failure "Email required")
  | Some email =>
      match truthy (scenarioId req) with
      | None => Json 400 (Failure "scenarioId required")
      | Some id =>
          match findById id db with
          | Throws => Json 500 (Failure "Report generation failed")
          | Null => Json 404 (Failure "Scenario not found")
          | Found scenario =>
              let name := scenario_name (doc scenario) in
              let filename :=
                (if String.eqb name "" then "report" else name) +:+ ".pdf" in
              if header_safe filename
              then Pdf filename (report_lines rt scenario email)
              else NoResponse
          end
      end
  end.


(** Whether a response carries a document. *)
Definition is_document (r : Response) : bool :=
  match r with Pdf _ _ => true | Json _ _ | NoResponse => false end.

(** What the collection casts to an identifier: 24 hexadecimal digits,
    or 12 bytes. *)
Definition hex_digit (c : Ascii.ascii) : bool :=
  let n := Ascii.nat_of_ascii c in
  (Nat.leb 48 n && Nat.leb n 57) || (Nat.leb 65 n && Nat.leb n 70)
  || (Nat.leb 97 n && Nat.leb n 102).

Definition castable (id : string) : bool :=
  (Nat.eqb (String.length id) 24 && forallb hex_digit (String.list_ascii_of_string id))
  || Nat.eqb (String.length id) 12.

(** An in-memory collection: the stored scenarios by identifier and the
    identifiers not handed out yet.  A write with no identifier left
    rejects; a lookup throws on an identifier that cannot be cast. *)
Record MemDb : Type := mkMemDb {
  stored : gmap string Scenario;
  unused : list string;
  clock : string
}.

Definition mem_save (d : ScenarioDoc) (db : MemDb) : option (Scenario * MemDb) :=
  match unused db with
  | [] => None
  | id :: ids =>
      let sc := mkScenario id (clock db) d in
      Some (sc, mkMemDb (<[id := sc]> (stored db)) ids (clock db))
  end.

Definition mem_findById (id : string) (db : MemDb) : Lookup :=
  if castable id
  then match stored db !! id with Some sc => Found sc | None => Null end
  else Throws.

#[export] Instance mem_collection : Collection MemDb :=
  {| save := mem_save; findById := mem_findById |}.

Definition empty_db : MemDb :=
  mkMemDb ∅ ["64f1a2b3c4d5e6f708192a3b"; "64f1a2b3c4d5e6f708192a3c"] "2024-01-01".

Definition runtime0 : Runtime := mkRuntime (fun _ => "n") "2024-01-01, 00:00:00".

Definition unnamed_payload : SavePayload := mkSavePayload None scenario1.

Definition named_payload : SavePayload :=
  mkSavePayload (Some "My_Scenario") scenario1.

Definition report_request : ReportRequest :=
  mkReportRequest (Some "64f1a2b3c4d5e6f708192a3b") (Some "lead@example.com").


End Routes.

(* ================================================================== *)
(** ** The lookup route and the browser's report handler *)
(* ================================================================== *)

Module Pages.

Import Calc Routes.

(** What [GET /scenarios/:id] answers: the scenario handed to
    [res.json], or [success: false] under a status with a message. *)
Inductive Answer : Type :=
| ScenarioFound (scenario : Scenario)
| Refused (status : nat) (message : option string).

(** Lines 137-146. *)
Definition get_scenario `{Collection Db} (id : string) (db : Db) : Answer :=
  match findById id db with
  | Found sc => ScenarioFound sc
  | Null => Refused 404 (Some "Not found")
  | Throws => Refused 400 (Some "Invalid id")
  end.

(** The state of [App]: the form (the scenario name with the eight
    inputs), the results on display and the e-mail address typed in.
    [handleReport] only tests whether there are results. *)
Record AppState : Type := mkAppState {
  form : SavePayload;
  shown : option Results;
  address : string
}.

(** [App.jsx], line 4: the form as it is first shown. *)
Definition defaults : SavePayload := mkSavePayload (Some "My_Scenario") scenario1.

(** The default [validateStatus] of the HTTP client: the wrappers of
    [api] resolve on a 2xx answer and reject on any other. *)
Definition resolves (status : nat) : bool :=
  Nat.leb 200 status && Nat.ltb status 300.

(** How [handleReport] ends: with one of its alerts, or with the body it
    received offered as a download. *)
Inductive ReportOutcome : Type :=
| AskForEmail
| AskForResults
| Download (filename : string) (received : Response)
| ReportFailed.

(** [App.jsx], lines 114-133.  A rejected request, and a save answered
    without [success], land in the catch.  A document is sent under the
    default status, 200.  A report request left without an answer is
    rejected when the connection closes: the exception thrown in the
    callback is not caught anywhere and stops the server. *)
Definition handleReport `{Collection Db} (rt : Runtime) (st : AppState) (db : Db)
  : ReportOutcome * Db :=
  if String.eqb (address st) "" then (AskForEmail, db)
  else match shown st with
  | None => (AskForResults, db)
  | Some _ =>
      match post_scenarios (form st) db with
      | (Json status (Saved saved), db') =>
          if resolves status then
            let received :=
              post_report_generate rt
                (mkReportRequest (Some (_id saved)) (Some (address st))) db' in
            let name := default "" (truthy (p_scenario_name (form st))) in
            let filename :=
              (if String.eqb name "" then "report" else name) +:+ ".pdf" in
            match received with
            | Pdf _ _ => (Download filename received, db')
            | Json status' _ =>
                if resolves status' then (Download filename received, db')
                else (ReportFailed, db')
            | NoResponse => (ReportFailed, db')
            end
          else (ReportFailed, db')
      | (_, db') => (ReportFailed, db')
      end
  end.

(** What the report flow relies on from the collection, for the states
    [ok] singles out: a write returns the document it was given under an
    identifier that is not empty, and a scenario just written is found
    under its identifier. *)
Record Lawful {Db : Type} `{Collection Db} (ok : Db -> Prop) : Prop := {
  save_returns_doc : forall d db sc db',
    ok db -> save d db = Some (sc, db') -> doc sc = d /\ _id sc <> "";
  find_after_save : forall d db sc db',
    ok db -> save d db = Some (sc, db') -> findById (_id sc) db' = Found sc
}.

Definition blank_payload : SavePayload := mkSavePayload (Some "") scenario1.

(** The first scenario saved from the default form, and the collection
    that holds it. *)
Definition first_saved : Scenario :=
  mkScenario "64f1a2b3c4d5e6f708192a3b" "2024-01-01"
             (mkScenarioDoc "My_Scenario" scenario1 (computeResults scenario1)).

Definition db_after_save : MemDb :=
  mkMemDb (<["64f1a2b3c4d5e6f708192a3b" := first_saved]> ∅)
          ["64f1a2b3c4d5e6f708192a3c"] "2024-01-01".

(** The default form under a name with a character outside U+0000..U+00FF. *)
Definition euro_state : AppState :=
  mkAppState (mkSavePayload (Some "Plan €") scenario1)
             (Some (computeResults scenario1)) "lead@example.com".

Definition ready_state : AppState :=
  mkAppState defaults (Some (computeResults scenario1)) "lead@example.com".

(** The unused identifiers can be cast. *)
Definition fresh_ids (db : MemDb) : Prop :=
  Forall (fun id => castable id = true) (unused db).

(** A number that is a zero or NaN. *)
Definition zero_or_nan (x : float) : Prop :=
  x = 0%float \/ x = (-0)%float \/ x = nan.

End Pages.

(* ================================================================== *)
(** ** Order on specification-level numbers *)
(* ================================================================== *)

Module SFOrder.

Local Open Scope Z_scope.

(** [x] is at least the positive number [c * 2^ec], both numbers being
    written with a mantissa of the same length. *)
Definition SF_ge (c : positive) (ec : Z) (x : spec_float) : Prop :=
  match x with
  | S754_infinity false => True
  | S754_finite false m e => ec < e \/ (e = ec /\ Zpos c <= Zpos m)
  | _ => False
  end.

End SFOrder.

(* ================================================================== *)
(** ** Rounding of binary64 results, from below *)
(* ================================================================== *)

Module BinaryRounding.

Import SFOrder.
Local Open Scope Z_scope.

Lemma digits2_pos_size (p : positive) : digits2_pos p = Pos.size p.
Proof. induction p; simpl; congruence. Qed.

Lemma digits2_pos_bounds (p : positive) :
  2 ^ (Zpos (digits2_pos p) - 1) <= Zpos p < 2 ^ Zpos (digits2_pos p).
Proof.
  rewrite digits2_pos_size. split.
  - pose proof (Pos.size_le p) as H.
    assert (2 ^ Zpos (Pos.size p) <= 2 * Zpos p) as H'.
    { rewrite <- Pos2Z.inj_pow. change (2 * Z.pos p) with (Z.pos p~0). lia. }
    replace (Zpos (Pos.size p)) with (Z.succ (Zpos (Pos.size p) - 1)) in H' by lia.
    rewrite Z.pow_succ_r in H' by lia. lia.
  - pose proof (Pos.size_gt p) as H. rewrite <- Pos2Z.inj_pow. lia.
Qed.

Lemma digits2_pos_unique (p : positive) (d : Z) :
  2 ^ (d - 1) <= Zpos p < 2 ^ d -> Zpos (digits2_pos p) = d.
Proof.
  intros [Hl Hu]. pose proof (digits2_pos_bounds p) as [Bl Bu].
  set (k := Zpos (digits2_pos p)) in *.
  assert (0 < d) as Hd.
  { destruct (Z.ltb_spec 0 d); [done|]. rewrite Z.pow_neg_r in Hl by lia.
    assert (2 ^ d <= 2 ^ 0) by (apply Z.pow_le_mono_r; lia). simpl in *. lia. }
  destruct (Z.lt_trichotomy k d) as [Hlt|[->|Hgt]]; [|done|].
  - assert (2 ^ k <= 2 ^ (d - 1)) by (apply Z.pow_le_mono_r; lia). lia.
  - assert (2 ^ d <= 2 ^ (k - 1)) by (apply Z.pow_le_mono_r; lia). lia.
Qed.

Lemma shr_m_shr_1 (r : shr_record) :
  0 <= shr_m r -> shr_m (shr_1 r) = shr_m r / 2.
Proof.
  destruct r as [[|[p|p|]|p] rb sb]; simpl; intros H; try lia; try reflexivity.
  - rewrite Pos2Z.inj_xI. apply (Z.div_unique _ _ _ 1); lia.
  - rewrite Pos2Z.inj_xO. apply (Z.div_unique _ _ _ 0); lia.
Qed.

Lemma shr_m_iter_pos (p : positive) (r : shr_record) :
  0 <= shr_m r -> shr_m (SpecFloat.iter_pos shr_1 p r) = shr_m r / 2 ^ Zpos p.
Proof.
  revert r. induction p as [p IH|p IH|]; intros r Hr; simpl SpecFloat.iter_pos.
  - assert (0 <= shr_m (shr_1 r)) as H1 by (rewrite shr_m_shr_1 by done; apply Z.div_pos; lia).
    assert (0 <= shr_m (SpecFloat.iter_pos shr_1 p (shr_1 r))) as H2
      by (rewrite IH by done; apply Z.div_pos; lia).
    rewrite IH, IH, shr_m_shr_1 by done.
    rewrite !Z.div_div by lia. f_equal.
    replace (Zpos p~1) with (1 + Zpos p + Zpos p) by lia.
    rewrite !Z.pow_add_r by lia. lia.
  - assert (0 <= shr_m (SpecFloat.iter_pos shr_1 p r)) as H2
      by (rewrite IH by done; apply Z.div_pos; lia).
    rewrite IH, IH by done.
    rewrite !Z.div_div by lia. f_equal.
    replace (Zpos p~0) with (Zpos p + Zpos p) by lia.
    rewrite !Z.pow_add_r by lia. lia.
  - apply shr_m_shr_1; done.
Qed.

Lemma shr_spec (r : shr_record) (e n : Z) :
  0 <= shr_m r -> 0 <= n ->
  shr_m (fst (shr r e n)) = shr_m r / 2 ^ n /\ snd (shr r e n) = e + n.
Proof.
  intros Hr Hn. destruct n as [|p|p]; simpl; [|split; [by apply shr_m_iter_pos|done]|lia].
  rewrite Z.div_1_r. lia.
Qed.

Lemma round_nearest_even_range (m : Z) (l : location) :
  m <= round_nearest_even m l <= m + 1.
Proof. destruct l as [|[]]; simpl; try destruct (Z.even m); lia. Qed.

Lemma shr_m_record_of_loc (m : Z) (l : location) : shr_m (shr_record_of_loc m l) = m.
Proof. by destruct l as [|[]]. Qed.

(** Rounding a positive mantissa of at least 53 digits that stays in the
    normal range: the result is an infinity or a finite number whose
    exponent and mantissa are bounded from below. *)
Lemma binary_round_aux_lower (s : bool) (mx : positive) (ex : Z) (l : location) :
  let d := Zpos (digits2_pos mx) in
  53 <= d -> -1074 <= d + ex - 53 ->
  match binary_round_aux prec emax s (Zpos mx) ex l with
  | S754_infinity s' => s' = s
  | S754_finite s' m e =>
      s' = s /\
      2 ^ 52 <= Zpos m < 2 ^ 53 /\
      ((e = ex + (d - 53) /\ Zpos mx / 2 ^ (d - 53) <= Zpos m) \/
       e = ex + (d - 53) + 1)
  | _ => False
  end.
Proof.
  intros d Hd He. unfold binary_round_aux, shr_fexp.
  change (Zdigits2 (Zpos mx)) with d.
  assert (fexp prec emax (d + ex) = d + ex - 53) as -> by (unfold fexp, SpecFloat.emin, prec, emax; lia).
  pose proof (digits2_pos_bounds mx) as [Bl Bu]. fold d in Bl, Bu.
  destruct (shr_spec (shr_record_of_loc (Zpos mx) l) ex (d + ex - 53 - ex)) as [Hm He1];
    [rewrite shr_m_record_of_loc; lia | lia |].
  rewrite shr_m_record_of_loc in Hm.
  destruct (shr _ ex _) as [mrs' e']. simpl in Hm, He1.
  replace (d + ex - 53 - ex) with (d - 53) in Hm by lia.
  set (q := Zpos mx / 2 ^ (d - 53)) in *.
  assert (2 ^ 52 <= q < 2 ^ 53) as [Ql Qu].
  { unfold q. split.
    - apply Z.div_le_lower_bound; [lia|]. rewrite <- Z.pow_add_r by lia.
      replace (d - 53 + 52) with (d - 1) by lia. done.
    - apply Z.div_lt_upper_bound; [lia|]. rewrite <- Z.pow_add_r by lia.
      replace (d - 53 + 53) with d by lia. done. }
  pose proof (round_nearest_even_range (shr_m mrs') (loc_of_shr_record mrs')) as Hr.
  set (m1 := round_nearest_even _ _) in *. clearbody m1. rewrite Hm in Hr.
  destruct m1 as [|pm1|pm1]; [lia| |lia].
  simpl Zdigits2.
  destruct (Z.eq_dec (Zpos pm1) (2 ^ 53)) as [Heq|Hne].
  - assert (Zpos (digits2_pos pm1) = 54) as -> by (apply digits2_pos_unique; rewrite Heq; simpl; lia).
    assert (fexp prec emax (54 + e') = 54 + e' - 53) as -> by (unfold fexp, SpecFloat.emin, prec, emax; lia).
    replace (54 + e' - 53 - e') with 1 by lia.
    inversion Heq as [Heq']. simpl. 
    destruct (_ <=? _); [|done]. split; [done|]. split; [lia|right; lia].
  - assert (Zpos (digits2_pos pm1) = 53) as -> by (apply digits2_pos_unique; simpl; lia).
    assert (fexp prec emax (53 + e') = 53 + e' - 53) as -> by (unfold fexp, SpecFloat.emin, prec, emax; lia).
    replace (53 + e' - 53 - e') with 0 by lia. simpl.
    destruct (_ <=? _); [|done]. split; [done|]. split; [lia|left; lia].
Qed.

Lemma SFleb_ge (c : positive) (ec : Z) (x : spec_float) :
  SFleb (S754_finite false c ec) x = true <-> SF_ge c ec x.
Proof.
  unfold SFleb. destruct x as [[]|[]| |[] m e]; simpl; try done.
  change (Pos.compare_cont Eq c m) with (Pos.compare c m).
  destruct (Z.compare_spec ec e); destruct (Pos.compare_spec c m); split; intros; try done; lia.
Qed.

Lemma SFltb_ge (c : positive) (ec : Z) (x : spec_float) :
  x <> S754_nan -> SFltb x (S754_finite false c ec) = false -> SF_ge c ec x.
Proof.
  unfold SFltb. destruct x as [[]|[]| |[] m e]; simpl; try done.
  change (Pos.compare_cont Eq m c) with (Pos.compare m c).
  destruct (Z.compare_spec e ec); destruct (Pos.compare_spec m c); intros; try done; lia.
Qed.

Lemma SF_ge_not_ltb (c : positive) (ec : Z) (x : spec_float) :
  SF_ge c ec x -> SFltb x (S754_finite false c ec) = false.
Proof.
  unfold SFltb. destruct x as [[]|[]| |[] m e]; simpl; try done.
  change (Pos.compare_cont Eq m c) with (Pos.compare m c).
  destruct (Z.compare_spec e ec); destruct (Pos.compare_spec m c); intros; try done; lia.
Qed.

Lemma SF_ge_positive (c : positive) (ec : Z) (x : spec_float) :
  SF_ge c ec x -> SFltb (S754_zero false) x = true.
Proof. by destruct x as [[]|[]| |[] m e]. Qed.

Lemma SF_ge_not_nan (c : positive) (ec : Z) (x : spec_float) :
  SF_ge c ec x -> x <> S754_nan.
Proof. by destruct x as [[]|[]| |[] m e]. Qed.

Lemma SFdiv_zero_ge (c : positive) (ec : Z) (s : bool) (x : spec_float) :
  SF_ge c ec x -> SFdiv prec emax (S754_zero s) x = S754_zero s.
Proof. by destruct x as [[]|[]| |[] m e], s. Qed.

(** What [SF_ge] says of each form of number. *)
Lemma SF_ge_cases (c : positive) (ec : Z) (x : spec_float) :
  SF_ge c ec x ->
  x = S754_infinity false \/
  exists m e, x = S754_finite false m e /\ (ec < e \/ (e = ec /\ Zpos c <= Zpos m)).
Proof. destruct x as [[]|[]| |[] m e]; simpl; try done; eauto. Qed.

Lemma SF_ge_weaken (c c' : positive) (ec ec' : Z) (x : spec_float) :
  ec' < ec \/ (ec' = ec /\ Zpos c' <= Zpos c) -> SF_ge c ec x -> SF_ge c' ec' x.
Proof. destruct x as [[]|[]| |[] m e]; simpl; lia. Qed.

(** A valid number at or above 1 has a full mantissa. *)
Lemma valid_normal_digits (s : bool) (m : positive) (e : Z) :
  valid_binary (S754_finite s m e) = true -> -1074 < e ->
  Zpos (digits2_pos m) = 53.
Proof.
  simpl. unfold bounded, canonical_mantissa, fexp, SpecFloat.emin, prec, emax.
  intros H He. apply andb_true_iff in H as [H _]. apply Z.eqb_eq in H. lia.
Qed.

Lemma SFmul_ge (M c : positive) (e ec : Z) :
  Zpos (digits2_pos M) = 53 -> -52 <= e ->
  Zpos (digits2_pos c) = 53 -> -1074 <= ec ->
  SF_ge c ec (SFmul prec emax (S754_finite false M e) (S754_finite false c ec)).
Proof.
  intros HM He Hc Hec. simpl.
  pose proof (digits2_pos_bounds M) as [Ml Mu]. rewrite HM in Ml, Mu.
  pose proof (digits2_pos_bounds c) as [Cl Cu]. rewrite Hc in Cl, Cu.
  pose proof (digits2_pos_bounds (M * c)) as [Pl Pu].
  set (d := Zpos (digits2_pos (M * c))) in *.
  rewrite Pos2Z.inj_mul in Pl, Pu.
  simpl in Ml, Mu, Cl, Cu.
  assert (105 <= d <= 106) as Hd.
  { split.
    - destruct (Z.le_gt_cases 105 d); [done|].
      assert (2 ^ d <= 2 ^ 104) by (apply Z.pow_le_mono_r; lia). simpl in *. nia.
    - destruct (Z.le_gt_cases d 106); [done|].
      assert (2 ^ 106 <= 2 ^ (d - 1)) by (apply Z.pow_le_mono_r; lia). simpl in *. nia. }
  pose proof (binary_round_aux_lower false (M * c) (e + ec) loc_Exact) as HR.
  fold d in HR. simpl in HR. specialize (HR ltac:(lia) ltac:(lia)).
  destruct (binary_round_aux _ _ _ _ _ _) as [|[]| |[] m' e']; simpl; try done;
    try (by destruct HR).
  destruct HR as (_ & Hm & [[-> Hq] | ->]); [|lia].
  destruct (Z.eq_dec e (-52)) as [->|]; [|lia].
  destruct (Z.eq_dec d 105) as [Hd5|]; [|lia].
  right. split; [lia|]. rewrite Hd5 in Hq. 
  etransitivity; [|exact Hq]. apply Z.div_le_lower_bound; [lia|].
  rewrite Pos2Z.inj_mul. change (2 ^ (105 - 53)) with 4503599627370496. nia.
Qed.

Lemma shl_align_le (mx : positive) (ex ex' : Z) :
  ex' <= ex ->
  exists m', shl_align mx ex ex' = (m', ex') /\ Zpos m' = Zpos mx * 2 ^ (ex - ex').
Proof.
  intros Hle. unfold shl_align. destruct (ex' - ex) as [|d|d] eqn:E; [|lia|].
  - exists mx. replace ex' with ex by lia. rewrite Z.sub_diag. split; [done|]. simpl. lia.
  - exists (shift_pos d mx). split; [done|]. rewrite shift_pos_correct.
    replace (ex - ex') with (Zpos d) by lia. rewrite Z.mul_comm. done.
Qed.

Lemma shl_align_ge (mx : positive) (ex ex' : Z) :
  ex <= ex' -> shl_align mx ex ex' = (mx, ex).
Proof. intros Hle. unfold shl_align. destruct (ex' - ex) as [|d|d] eqn:E; [done|done|lia]. Qed.

(** Rounding a positive integer mantissa that needs no shift to the left. *)
Lemma binary_round_lower (mx : positive) (ex : Z) :
  let d := Zpos (digits2_pos mx) in
  53 <= d -> -1074 <= d + ex - 53 ->
  binary_round prec emax false mx ex
  = binary_round_aux prec emax false (Zpos mx) ex loc_Exact.
Proof.
  intros d Hd He. unfold binary_round. rewrite shl_align_ge; [done|].
  fold d. unfold fexp, SpecFloat.emin, prec, emax. lia.
Qed.

Lemma SFadd_epsilon_ge (M : positive) (e : Z) :
  Zpos (digits2_pos M) = 53 -> -52 <= e ->
  SF_ge 4503599627370496 (-52)
    (SFadd prec emax (S754_finite false M e)
                     (S754_finite false 4503599627370496 (-104))).
Proof.
  intros HM He. cbn [SFadd cond_Zopp].
  rewrite Z.min_r by lia.
  destruct (shl_align_le M e (-104)) as (m' & -> & Hm'); [lia|].
  rewrite (shl_align_ge _ (-104) (-104)) by lia. cbn [fst].
  pose proof (digits2_pos_bounds M) as [Ml Mu]. rewrite HM in Ml, Mu.
  change (Zpos m' + Zpos 4503599627370496) with (Zpos (m' + 4503599627370496)).
  cbn [binary_normalize].
  pose proof (digits2_pos_bounds (m' + 4503599627370496)) as [Sl Su].
  set (S := (m' + 4503599627370496)%positive) in *.
  set (d := Zpos (digits2_pos S)) in *.
  assert (Zpos S = Zpos M * 2 ^ (e + 104) + 2 ^ 52) as HS.
  { unfold S. rewrite Pos2Z.inj_add, Hm'. f_equal. }
  assert (2 ^ 104 <= Zpos S) as HS104.
  { rewrite HS. assert (2 ^ 52 <= 2 ^ (e + 104)) by (apply Z.pow_le_mono_r; lia).
    change (2 ^ 104) with (2 ^ 52 * 2 ^ 52). simpl in Ml. nia. }
  assert (105 <= d) as Hd.
  { destruct (Z.le_gt_cases 105 d); [done|].
    assert (2 ^ d <= 2 ^ 104) by (apply Z.pow_le_mono_r; lia). lia. }
  rewrite binary_round_lower by (fold d; lia).
  pose proof (binary_round_aux_lower false S (-104) loc_Exact) as HR.
  fold d in HR. simpl in HR. specialize (HR ltac:(lia) ltac:(lia)).
  destruct (binary_round_aux _ _ _ _ _ _) as [|[]| |[] m1 e1]; simpl; try done;
    try (by destruct HR).
  destruct HR as (_ & Hm & [[-> Hq] | ->]); lia.
Qed.

(** The double of an integer between 100 and 2^53 is at least 100. *)
Lemma binary_normalize_int_ge (n : positive) :
  100 <= Zpos n < 2 ^ 53 ->
  SF_ge 7036874417766400 (-46) (binary_normalize prec emax (Zpos n) 0 false).
Proof.
  intros [Hl Hu]. cbn [binary_normalize]. unfold binary_round.
  pose proof (digits2_pos_bounds n) as [Nl Nu].
  set (dn := Zpos (digits2_pos n)) in *.
  assert (7 <= dn <= 53) as Hdn.
  { split.
    - destruct (Z.le_gt_cases 7 dn); [done|].
      assert (2 ^ dn <= 2 ^ 6) by (apply Z.pow_le_mono_r; lia). simpl in *. lia.
    - destruct (Z.le_gt_cases dn 53); [done|].
      assert (2 ^ 53 <= 2 ^ (dn - 1)) by (apply Z.pow_le_mono_r; lia). lia. }
  assert (fexp prec emax (dn + 0) = dn - 53) as ->
    by (unfold fexp, SpecFloat.emin, prec, emax; lia).
  destruct (shl_align_le n 0 (dn - 53)) as (m' & -> & Hm'); [lia|].
  replace (0 - (dn - 53)) with (53 - dn) in Hm' by lia.
  assert (Zpos (digits2_pos m') = 53) as Hd'.
  { apply digits2_pos_unique. rewrite Hm'. split.
    - replace (53 - 1) with ((dn - 1) + (53 - dn)) by lia.
      rewrite Z.pow_add_r by lia. apply Z.mul_le_mono_nonneg_r; [lia|done].
    - replace 53 with (dn + (53 - dn)) at 2 by lia.
      rewrite Z.pow_add_r by lia. apply Z.mul_lt_mono_pos_r; [lia|done]. }
  pose proof (binary_round_aux_lower false m' (dn - 53) loc_Exact) as HR.
  rewrite Hd' in HR. simpl in HR. specialize (HR ltac:(lia) ltac:(lia)).
  destruct (binary_round_aux _ _ _ _ _ _) as [|[]| |[] m1 e1]; simpl; try done;
    try (by destruct HR).
  destruct HR as (_ & Hm & [[-> Hq] | ->]); [|lia].
  destruct (Z.eq_dec dn 7) as [H7|]; [|lia].
  right. split; [lia|]. rewrite Z.div_1_r in Hq. rewrite H7 in Hm'. simpl in Hm'. lia.
Qed.

(** Rounding to the nearest integer, on the mantissa: at least 100 and
    below 2^53 when the number is at least 100 and not yet an integer. *)
Lemma round_half_up_bounds (m : positive) (e : Z) :
  Zpos (digits2_pos m) = 53 -> e < 0 ->
  (-46 < e \/ (e = -46 /\ 7036874417766400 <= Zpos m)) ->
  100 <= Z.shiftr (2 * Zpos m + 2 ^ (- e)) (1 - e) < 2 ^ 53.
Proof.
  intros Hm He Hge.
  pose proof (digits2_pos_bounds m) as [Ml Mu]. rewrite Hm in Ml, Mu.
  rewrite Z.shiftr_div_pow2 by lia.
  replace (1 - e) with (Z.succ (- e)) by lia. rewrite Z.pow_succ_r by lia.
  set (k := - e) in *. assert (1 <= k <= 46) as Hk by lia.
  assert (2 ^ 1 <= 2 ^ k) as Hk1 by (apply Z.pow_le_mono_r; lia).
  assert (0 < 2 ^ k) as Hkp by lia.
  split.
  - apply Z.div_le_lower_bound; [lia|].
    destruct Hge as [Hge|[Hge Hm100]].
    + assert (2 ^ k <= 2 ^ 45) as Hk45 by (apply Z.pow_le_mono_r; lia).
      simpl in Ml, Hk45. lia.
    + replace k with 46 by lia. simpl. lia.
  - apply Z.div_lt_upper_bound; [lia|]. simpl in Mu, Hk1. 
    change (2 ^ 53) with 9007199254740992. nia.
Qed.

Lemma SFdiv_100_ge (m1 : positive) (e1 : Z) :
  Zpos (digits2_pos m1) = 53 ->
  SF_ge 7036874417766400 (-46) (S754_finite false m1 e1) ->
  SF_ge 4503599627370496 (-52)
    (SFdiv prec emax (S754_finite false m1 e1)
                     (S754_finite false 7036874417766400 (-46))).
Proof.
  intros Hd1 Hge. simpl in Hge. cbn [SFdiv xorb]. unfold SFdiv_core_binary.
  cbn [Zdigits2]. rewrite Hd1.
  change (Zpos (digits2_pos 7036874417766400)) with 53.
  assert (Z.min (fexp prec emax (53 + e1 - (53 + -46))) (e1 - -46) = e1 - 7) as ->
    by (unfold fexp, SpecFloat.emin, prec, emax; lia).
  replace (e1 - -46 - (e1 - 7)) with 53 by lia.
  rewrite Z.shiftl_mul_pow2 by lia.
  pose proof (digits2_pos_bounds m1) as [Ml Mu]. rewrite Hd1 in Ml, Mu.
  pose proof (Z_div_mod (Zpos m1 * 2 ^ 53) 7036874417766400 ltac:(lia)) as Hdm.
  destruct (Z.div_eucl _ _) as [q r]. destruct Hdm as [Heq Hr].
  change (2 ^ 53) with 9007199254740992 in *. simpl in Ml.
  assert (4503599627370496 <= q < 18014398509481984) as Hq by nia.
  destruct q as [|pq|pq]; [lia| |lia].
  pose proof (digits2_pos_bounds pq) as [Ql Qu].
  set (d := Zpos (digits2_pos pq)) in *.
  assert (53 <= d <= 54) as Hd.
  { split.
    - destruct (Z.le_gt_cases 53 d); [done|].
      assert (2 ^ d <= 2 ^ 52) by (apply Z.pow_le_mono_r; lia). simpl in *. lia.
    - destruct (Z.le_gt_cases d 54); [done|].
      assert (2 ^ 54 <= 2 ^ (d - 1)) by (apply Z.pow_le_mono_r; lia). simpl in *. lia. }
  pose proof (binary_round_aux_lower false pq (e1 - 7)
                (new_location 7036874417766400 r)) as HR.
  fold d in HR. simpl in HR. specialize (HR ltac:(lia) ltac:(lia)).
  destruct (binary_round_aux _ _ _ _ _ _) as [|[]| |[] m' e']; simpl; try done;
    try (by destruct HR).
  destruct HR as (_ & Hm & [[-> Hq'] | ->]); [|lia].
  destruct Hge as [Hge|[-> Hm100]]; [lia|].
  assert (9007199254740992 <= Zpos pq) by nia.
  assert (d = 54); [|lia].
  destruct (Z.eq_dec d 54); [done|]. replace d with 53 in Qu by lia. simpl in Qu. lia.
Qed.

End BinaryRounding.

(* ================================================================== *)
(** ** Facts about binary64 numbers *)
(* ================================================================== *)

Module FloatFacts.

Import JS SFOrder BinaryRounding.
Local Open Scope float_scope.

Lemma SF_zero : Prim2SF 0 = S754_zero false.
Proof. reflexivity. Qed.

Lemma SF_one : Prim2SF 1 = S754_finite false 4503599627370496 (-52).
Proof. reflexivity. Qed.

(** A number is recovered from its specification-level form. *)
Lemma float_of_SF (x : float) (sf : spec_float) : Prim2SF x = sf -> x = SF2Prim sf.
Proof. intros <-. symmetry. apply SF2Prim_Prim2SF. Qed.

Lemma SFcompare_refl (sf : spec_float) : sf <> S754_nan -> SFcompare sf sf = Some Eq.
Proof.
  destruct sf as [[]|[]| |[] m e]; simpl; try done;
    rewrite Z.compare_refl, Pos.compare_cont_refl; done.
Qed.

Lemma is_nan_SF (x : float) : is_nan x = true -> Prim2SF x = S754_nan.
Proof.
  unfold is_nan. rewrite FloatAxioms.eqb_spec. unfold SFeqb. intros H.
  destruct (Prim2SF x) as [s|s| |s m e] eqn:E; [| |done|];
    rewrite SFcompare_refl in H by done; done.
Qed.

Lemma is_nan_eq (x : float) : is_nan x = true -> x = nan.
Proof. intros H. apply (float_of_SF x _ (is_nan_SF x H)). Qed.

Lemma is_nan_false_SF (x : float) : is_nan x = false -> Prim2SF x <> S754_nan.
Proof.
  unfold is_nan. rewrite FloatAxioms.eqb_spec. unfold SFeqb. intros H E. rewrite E in H. done.
Qed.

Lemma is_infinity_eq (x : float) :
  is_infinity x = true -> x = infinity \/ x = neg_infinity.
Proof.
  unfold is_infinity. rewrite FloatAxioms.eqb_spec, abs_spec. unfold SFeqb. intros H.
  destruct (Prim2SF x) as [s|[]| |s m e] eqn:E; simpl in H; try done.
  - right. apply (float_of_SF x _ E).
  - left. apply (float_of_SF x _ E).
Qed.

Lemma eqb_zero_cases (x : float) : (x =? 0) = true -> x = 0 \/ x = (-0).
Proof.
  rewrite FloatAxioms.eqb_spec, SF_zero. unfold SFeqb. intros H.
  destruct (Prim2SF x) as [[]|[]| |[] m e] eqn:E; simpl in H; try done.
  - right. apply (float_of_SF x _ E).
  - left. apply (float_of_SF x _ E).
Qed.

Lemma ltb_zero_asym (x : float) : (x <? 0) = true -> (0 <? x) = false.
Proof.
  rewrite !FloatAxioms.ltb_spec, SF_zero. unfold SFltb.
  destruct (Prim2SF x) as [[]|[]| |[] m e]; simpl; done.
Qed.

Lemma is_nan_false_iff (x : float) : is_nan x = false <-> Prim2SF x <> S754_nan.
Proof.
  split; [apply is_nan_false_SF|]. intros Hn.
  unfold is_nan. rewrite FloatAxioms.eqb_spec. unfold SFeqb.
  rewrite SFcompare_refl by done. done.
Qed.

(** *** Comparisons with a positive constant *)

Lemma SF_boost : Prim2SF 1.1 = S754_finite false 4953959590107546 (-52).
Proof. reflexivity. Qed.

Lemma SF_100 : Prim2SF 100 = S754_finite false 7036874417766400 (-46).
Proof. reflexivity. Qed.

Lemma SF_epsilon :
  Prim2SF Number_EPSILON = S754_finite false 4503599627370496 (-104).
Proof. reflexivity. Qed.

Lemma leb_SF (c x : float) (m : positive) (e : Z) :
  Prim2SF c = S754_finite false m e ->
  (c <=? x) = true <-> SF_ge m e (Prim2SF x).
Proof. intros Hc. rewrite FloatAxioms.leb_spec, Hc. apply SFleb_ge. Qed.

Lemma leb_one_SF (x : float) :
  (1 <=? x) = true <-> SF_ge 4503599627370496 (-52) (Prim2SF x).
Proof. apply leb_SF, SF_one. Qed.

Lemma leb_100_SF (x : float) :
  (100 <=? x) = true <-> SF_ge 7036874417766400 (-46) (Prim2SF x).
Proof. apply leb_SF, SF_100. Qed.

(** A number that is not below 1 is NaN or at least 1. *)
Lemma not_below_one (x : float) :
  (x <? 1) = false -> is_nan x = true \/ (1 <=? x) = true.
Proof.
  intros H. destruct (is_nan x) eqn:Hn; [by left|right].
  apply leb_one_SF. rewrite FloatAxioms.ltb_spec, SF_one in H.
  apply SFltb_ge; [by apply is_nan_false_SF|done].
Qed.

Lemma below_one_not_nan (x : float) : (x <? 1) = true -> is_nan x = false.
Proof.
  rewrite FloatAxioms.ltb_spec. intros H. apply is_nan_false_iff. intros E.
  rewrite E in H. done.
Qed.

Lemma abs_not_nan (x : float) : is_nan x = false -> is_nan (abs x) = false.
Proof.
  rewrite !is_nan_false_iff, abs_spec. by destruct (Prim2SF x).
Qed.

Lemma ltb_leb (x y : float) : (x <? y) = true -> (x <=? y) = true.
Proof.
  rewrite FloatAxioms.ltb_spec, FloatAxioms.leb_spec. unfold SFltb, SFleb.
  by destruct (SFcompare _ _) as [[]|].
Qed.

(** At least 1 means neither NaN nor below 1, and above 0. *)
Lemma ge_one_not_nan (x : float) : (1 <=? x) = true -> is_nan x = false.
Proof.
  intros H. apply leb_one_SF in H. apply is_nan_false_iff.
  exact (SF_ge_not_nan _ _ _ H).
Qed.

Lemma ge_one_not_below (x : float) : (1 <=? x) = true -> (x <? 1) = false.
Proof.
  intros H. apply leb_one_SF in H. rewrite FloatAxioms.ltb_spec, SF_one.
  exact (SF_ge_not_ltb _ _ _ H).
Qed.

Lemma ge_one_positive (x : float) : (1 <=? x) = true -> (0 <? x) = true.
Proof.
  intros H. apply leb_one_SF in H. rewrite FloatAxioms.ltb_spec, SF_zero.
  exact (SF_ge_positive _ _ _ H).
Qed.

Lemma ge_boost_ge_one (x : float) : (1.1 <=? x) = true -> (1 <=? x) = true.
Proof.
  intros H. apply (leb_SF _ _ _ _ SF_boost) in H. apply leb_one_SF.
  revert H. apply SF_ge_weaken. lia.
Qed.

(** The mantissa of a number at or above 1 has all its 53 digits. *)
Lemma ge_one_digits (x : float) (m : positive) (e : Z) :
  Prim2SF x = S754_finite false m e -> (-52 <= e)%Z ->
  Zpos (digits2_pos m) = 53%Z.
Proof.
  intros E He. pose proof (Prim2SF_valid x) as Hv. rewrite E in Hv.
  apply (valid_normal_digits _ _ _ Hv). lia.
Qed.

(** *** The four operations of the rounding helper, from below *)

Lemma mul_ge_one (x c : float) (m : positive) (e : Z) :
  Prim2SF c = S754_finite false m e ->
  Zpos (digits2_pos m) = 53%Z -> (-1074 <= e)%Z ->
  (1 <=? x) = true -> (c <=? x * c) = true.
Proof.
  intros Hc Hm He Hx. apply leb_one_SF in Hx. apply (leb_SF _ _ _ _ Hc).
  rewrite mul_spec, Hc. unfold SF64mul.
  destruct (SF_ge_cases _ _ _ Hx) as [E | (mx & ex & E & Hex)]; rewrite E; [done|].
  apply SFmul_ge; [|lia|done|done].
  apply (ge_one_digits x mx ex E). lia.
Qed.

Lemma add_epsilon_ge_one (x : float) :
  (1 <=? x) = true -> (1 <=? x + Number_EPSILON) = true.
Proof.
  intros Hx. apply leb_one_SF in Hx. apply leb_one_SF.
  rewrite add_spec, SF_epsilon. unfold SF64add.
  destruct (SF_ge_cases _ _ _ Hx) as [E | (mx & ex & E & Hex)]; rewrite E; [done|].
  apply SFadd_epsilon_ge; [|lia].
  apply (ge_one_digits x mx ex E). lia.
Qed.

Lemma Math_round_ge_100 (w : float) :
  (100 <=? w) = true -> (100 <=? Math_round w) = true.
Proof.
  intros Hw. pose proof Hw as Hge. apply leb_100_SF in Hge.
  unfold Math_round.
  destruct (SF_ge_cases _ _ _ Hge) as [E | (m & e & E & He46)]; rewrite E; [done|].
  clear Hge. rename He46 into Hge.
  destruct (Z.leb_spec 0 e) as [He|He]; [done|].
  assert (Zpos (digits2_pos m) = 53%Z) as Hd by (apply (ge_one_digits w m e E); lia).
  pose proof (round_half_up_bounds m e Hd He Hge) as [Hl Hu].
  cbn [cond_Zopp]. destruct (Z.shiftr _ _) as [|n|n]; [lia| |lia].
  cbn [float_of_Z]. apply leb_100_SF.
  rewrite of_uint63_spec, Uint63.of_Z_spec.
  rewrite Z.mod_small by (change Uint63.wB with (2 ^ 63)%Z; simpl in Hu; lia).
  by apply binary_normalize_int_ge.
Qed.

Lemma div_100_ge_one (y : float) :
  (100 <=? y) = true -> (1 <=? y / 100) = true.
Proof.
  intros Hy. apply leb_100_SF in Hy. apply leb_one_SF.
  rewrite div_spec, SF_100. unfold SF64div.
  destruct (SF_ge_cases _ _ _ Hy) as [E | (m & e & E & He)]; rewrite E; [done|].
  apply SFdiv_100_ge; [|exact He].
  apply (ge_one_digits y m e E). lia.
Qed.

(** *** [Math.max (1, a)] and a zero numerator *)

Lemma Math_max_one (a : float) :
  is_nan a = false -> Math_max 1 a = if 1 <? a then a else 1.
Proof.
  intros Hn. unfold Math_max. rewrite Hn.
  change (is_nan 1) with false. cbn [orb].
  destruct (1 <? a); [done|]. by destruct (a <? 1).
Qed.

Lemma Math_max_one_ge (a : float) :
  is_nan a = false -> (1 <=? Math_max 1 a) = true.
Proof.
  intros Hn. rewrite Math_max_one by done.
  destruct (1 <? a) eqn:Hlt; [by apply ltb_leb|done].
Qed.

Lemma zero_div_ge_one (c x : float) :
  (c =? 0) = true -> (1 <=? x) = true -> c / x = 0 \/ c / x = (-0).
Proof.
  intros Hc Hx. apply leb_one_SF in Hx.
  assert (exists s, Prim2SF c = S754_zero s) as [s Hs]
    by (apply eqb_zero_cases in Hc as [-> | ->]; eauto).
  assert (Prim2SF (c / x) = S754_zero s) as Hd.
  { rewrite div_spec, Hs. exact (SFdiv_zero_ge _ _ _ _ Hx). }
  apply float_of_SF in Hd. destruct s; [right|left]; exact Hd.
Qed.

End FloatFacts.

(* ================================================================== *)
(** ** The calculator: properties *)
(* ================================================================== *)

Module CalcFacts.

Import JS Calc FloatFacts.
Local Open Scope float_scope.

(** *** The floor policy *)

(** C1, as stated, fails: with only a volume of 1000 the raw saving is
    -200, the specification's floor (base |-200|) gives 220.00000000000003,
    and the code gives 242.00000000000006, so the returned field is 242
    and not 220. *)
Lemma floor_policy_spec_fails :
  monthly_savings_raw (locals volume_only) = (-200)
  /\ floor_policy_spec (-200) = 220.00000000000003
  /\ monthly_savings (locals volume_only) = 242.00000000000006
  /\ round (floor_policy_spec (-200)) = 220
  /\ r_monthly_savings (computeResults volume_only) = 242
  /\ (monthly_savings (locals volume_only)
      =? floor_policy_spec (monthly_savings_raw (locals volume_only))) = false.
Proof. vm_compute. repeat split; reflexivity. Qed.

(** C1, amended: for every input the monthly saving used by all later
    steps is the biased raw value [raw * 1.1] when that is not below 1,
    and otherwise [max (1, |raw * 1.1|) * 1.1], the absolute value being
    taken of the already biased value. *)
Theorem floor_policy_uses_biased_value (i : Inputs) :
  let raw := (labor_cost_manual (locals i) + error_savings (locals i))
             - auto_cost (locals i) in
  monthly_savings (locals i) = floor_policy_biased raw
  /\ r_monthly_savings (computeResults i) = round (floor_policy_biased raw)
  /\ cumulative_savings (locals i) = floor_policy_biased raw * horizon_of i
  /\ payback_months (locals i)
     = (if 0 <? floor_policy_biased raw
        then cost_of i / floor_policy_biased raw else Infinity).
Proof. repeat split; reflexivity. Qed.

(** Below the floor test the floor base is 1 unless the biased value is
    under -1, and then it is that value without its sign. *)
Lemma floor_policy_biased_cases (raw : float) :
  let biased := raw * min_roi_boost_factor in
  (biased <? 1) = true ->
  floor_policy_biased raw
  = (if 1 <? abs biased then abs biased else 1) * min_roi_boost_factor.
Proof.
  intros biased Hlt. unfold floor_policy_biased. fold biased. rewrite Hlt.
  unfold Math_abs. rewrite Math_max_one; [done|].
  by apply abs_not_nan, below_one_not_nan.
Qed.

(** C4, at scenario 1: the payback period 1.466275659824047 comes back as
    1.4663, four decimals, where the rounding helper applied once gives
    1.47; the helper is applied to the value times 100 and the result is
    divided by 100 again. *)
Theorem payback_months_keeps_four_decimals :
  payback_months (locals scenario1) = 1.466275659824047
  /\ round (payback_months (locals scenario1)) = 1.47
  /\ r_payback_months (computeResults scenario1) = 1.4663.
Proof. vm_compute. repeat split; reflexivity. Qed.

(** The other seven fields are the helper applied once. *)
Lemma seven_fields_rounded (i : Inputs) :
  let l := locals i in
  let r := computeResults i in
  r_labor_cost_manual r = round (labor_cost_manual l)
  /\ r_auto_cost r = round (auto_cost l)
  /\ r_error_savings r = round (error_savings l)
  /\ r_monthly_savings r = round (monthly_savings l)
  /\ r_cumulative_savings r = round (cumulative_savings l)
  /\ r_net_savings r = round (net_savings l)
  /\ r_roi_percentage r = round (roi_percentage l).
Proof. repeat split; reflexivity. Qed.

(** C5, scenario 1 evaluated: every field is as listed except the payback
    period, which is 1.4663 and not 1.47. *)
Theorem scenario1_results :
  computeResults scenario1
  = {| r_labor_cost_manual := 30600;
       r_auto_cost := 400;
       r_error_savings := 800;
       r_monthly_savings := 34100;
       r_cumulative_savings := 1227600;
       r_net_savings := 1177600;
       r_payback_months := 1.4663;
       r_roi_percentage := 2355.2 |}.
Proof. vm_compute. reflexivity. Qed.

(** C6, as stated, fails: with a raw saving of 0.95 the unrounded monthly
    saving is 1.045 and the returned one 1.05; over 36 months the returned
    cumulative saving is 37.62, while 1.05 * 36 rounds to 37.8. *)
Lemma cumulative_not_from_rounded_monthly :
  monthly_savings (locals small_saving) = 1.045
  /\ r_monthly_savings (computeResults small_saving) = 1.05
  /\ horizon_of small_saving = 36
  /\ r_cumulative_savings (computeResults small_saving) = 37.62
  /\ round (r_monthly_savings (computeResults small_saving)
            * horizon_of small_saving) = 37.8.
Proof. vm_compute. repeat split; reflexivity. Qed.

(** C6, amended: for every input the returned cumulative saving is the
    unrounded monthly saving (after bias and floor) times the time horizon,
    rounded to 2 decimals. *)
Theorem cumulative_from_unrounded_monthly (i : Inputs) :
  r_cumulative_savings (computeResults i)
  = round (monthly_savings (locals i) * horizon_of i)
  /\ r_monthly_savings (computeResults i) = round (monthly_savings (locals i)).
Proof. split; reflexivity. Qed.

(** Rounding leaves NaN and both infinities as they are. *)
Lemma round_non_finite (v : float) : non_finite v = true -> round v = v.
Proof.
  unfold non_finite. intros H. apply orb_true_iff in H as [H|H].
  - apply is_nan_eq in H as ->. reflexivity.
  - apply is_infinity_eq in H as [-> | ->]; reflexivity.
Qed.

(** C7: the rounding helper returns a non-finite value unchanged, positive
    infinity in particular, and an infinite payback period or ROI is
    returned as positive infinity. *)
Theorem round_passes_non_finite (v : float) (i : Inputs) :
  non_finite v = true ->
  round v = v
  /\ round Infinity = Infinity
  /\ (payback_months (locals i) = Infinity ->
      r_payback_months (computeResults i) = Infinity)
  /\ (roi_percentage (locals i) = Infinity ->
      r_roi_percentage (computeResults i) = Infinity).
Proof.
  intros H. split; [by apply round_non_finite|]. split; [reflexivity|].
  unfold computeResults; cbn [r_payback_months r_roi_percentage].
  split; intros ->; reflexivity.
Qed.

Lemma round_passes_non_finite_witness :
  non_finite Infinity = true
  /\ round Infinity = Infinity
  /\ r_payback_months (computeResults overflowing) = Infinity
  /\ r_roi_percentage (computeResults overflowing) = Infinity.
Proof.
  destruct (round_passes_non_finite Infinity overflowing eq_refl) as (H1 & _ & H2 & H3).
  split; [reflexivity|]. split; [exact H1|].
  split; [apply H2; reflexivity | apply H3; reflexivity].
Defined.

(** The ROI guard: a cost that is not above 0 gives an infinite ROI. *)
Lemma roi_guard (i : Inputs) :
  (0 <? cost_of i) = false -> r_roi_percentage (computeResults i) = Infinity.
Proof.
  intros H. unfold computeResults, locals; cbn [r_roi_percentage roi_percentage].
  rewrite H. reflexivity.
Qed.

(** *** Never below 1 *)

(** The rounding helper keeps a value at or above 1 at or above 1. *)
Lemma round_ge_one (v : float) : (1 <=? v) = true -> (1 <=? round v) = true.
Proof.
  intros Hv. unfold round.
  apply div_100_ge_one, Math_round_ge_100.
  apply (mul_ge_one _ 100 _ _ SF_100); [reflexivity | lia |].
  by apply add_epsilon_ge_one.
Qed.

(** The bias and the floor: below the floor test the result is at least
    1.1; otherwise it is the biased value, which is at least 1 or NaN. *)
Lemma bias_and_floor_floored (raw : float) :
  (raw * min_roi_boost_factor <? 1) = true ->
  (1.1 <=? bias_and_floor raw) = true.
Proof.
  intros Hlt. unfold bias_and_floor. rewrite Hlt.
  apply (mul_ge_one _ 1.1 _ _ SF_boost); [reflexivity | lia |].
  apply Math_max_one_ge. unfold Math_abs. by apply abs_not_nan, below_one_not_nan.
Qed.

Lemma bias_and_floor_ge_one (raw : float) :
  is_nan (bias_and_floor raw) = true \/ (1 <=? bias_and_floor raw) = true.
Proof.
  destruct (raw * min_roi_boost_factor <? 1) eqn:Hlt.
  - right. by apply ge_boost_ge_one, bias_and_floor_floored.
  - unfold bias_and_floor. rewrite Hlt. by apply not_below_one.
Qed.

(** C3, as stated, fails twice over.  A raw saving of 0.95 is biased to
    1.045, which passes the floor test, and comes back as 1.05; and inputs
    whose labour cost overflows give NaN, which is not at least 1.1. *)
Lemma monthly_savings_below_boost :
  monthly_savings_raw (locals small_saving) = 0.95
  /\ monthly_savings (locals small_saving) = 1.045
  /\ r_monthly_savings (computeResults small_saving) = 1.05
  /\ (1.1 <=? r_monthly_savings (computeResults small_saving)) = false
  /\ is_nan (r_monthly_savings (computeResults overflowing)) = true
  /\ (1.1 <=? r_monthly_savings (computeResults overflowing)) = false.
Proof. vm_compute. repeat split; reflexivity. Qed.

(** C3, amended: for every input the monthly saving after the bias and
    the floor, and the returned field with it, is NaN or at least 1, so
    never below 1; when the floor is applied the saving is at least 1.1. *)
Theorem monthly_savings_never_below_one (i : Inputs) :
  let ms := monthly_savings (locals i) in
  let field := r_monthly_savings (computeResults i) in
  ((is_nan ms = true /\ is_nan field = true)
   \/ ((1 <=? ms) = true /\ (1 <=? field) = true))
  /\ (ms <? 1) = false
  /\ (field <? 1) = false
  /\ ((monthly_savings_raw (locals i) * min_roi_boost_factor <? 1) = true ->
      (1.1 <=? ms) = true).
Proof.
  intros ms field.
  assert (ms = bias_and_floor (monthly_savings_raw (locals i))) as Hms by reflexivity.
  assert (field = round ms) as Hf by reflexivity.
  assert ((is_nan ms = true /\ is_nan field = true)
          \/ ((1 <=? ms) = true /\ (1 <=? field) = true)) as Hcases.
  { destruct (bias_and_floor_ge_one (monthly_savings_raw (locals i))) as [Hn|Hge];
      rewrite <- Hms in *.
    - left. split; [done|]. rewrite Hf. apply is_nan_eq in Hn as ->. reflexivity.
    - right. split; [done|]. rewrite Hf. by apply round_ge_one. }
  split; [exact Hcases|].
  repeat split.
  - destruct Hcases as [[Hn _]|[Hge _]]; [|by apply ge_one_not_below].
    apply is_nan_eq in Hn as ->. reflexivity.
  - destruct Hcases as [[_ Hn]|[_ Hge]]; [|by apply ge_one_not_below].
    apply is_nan_eq in Hn as ->. reflexivity.
  - intros Hlt. rewrite Hms. by apply bias_and_floor_floored.
Qed.

(** *** A cost of zero *)

Lemma payback_months_field (i : Inputs) :
  r_payback_months (computeResults i)
  = round ((if 0 <? monthly_savings (locals i)
            then cost_of i / monthly_savings (locals i)
            else Infinity) * 100) / 100.
Proof. reflexivity. Qed.

(** C2, as stated, fails: with all inputs zero (scenario 2) the monthly
    saving is 1.1, the guard [monthly_savings > 0] holds, and the payback
    period is 0 / 1.1 = 0, not infinity; the ROI is infinite. *)
Lemma zero_cost_payback_is_zero :
  cost_of scenario2 = 0
  /\ monthly_savings (locals scenario2) = 1.1
  /\ r_payback_months (computeResults scenario2) = 0
  /\ (r_payback_months (computeResults scenario2) =? Infinity) = false
  /\ r_roi_percentage (computeResults scenario2) = Infinity.
Proof. vm_compute. repeat split; reflexivity. Qed.

(** C2, amended: for every input whose implementation cost is 0 (of
    either sign), the ROI percentage is positive infinity, and the payback
    period is 0 whenever the monthly saving is a number; it is positive
    infinity only when the monthly saving is NaN. *)
Theorem zero_cost_roi_infinite_payback_zero (i : Inputs) :
  (cost_of i =? 0) = true ->
  r_roi_percentage (computeResults i) = Infinity
  /\ r_payback_months (computeResults i)
     = (if is_nan (monthly_savings (locals i)) then Infinity else 0).
Proof.
  intros Hc. split.
  - apply roi_guard. apply eqb_zero_cases in Hc as [-> | ->]; reflexivity.
  - rewrite payback_months_field.
    assert (monthly_savings (locals i)
            = bias_and_floor (monthly_savings_raw (locals i))) as Hms by reflexivity.
    destruct (bias_and_floor_ge_one (monthly_savings_raw (locals i))) as [Hn|Hge];
      rewrite <- Hms in *.
    + rewrite Hn. apply is_nan_eq in Hn as ->. reflexivity.
    + rewrite (ge_one_not_nan _ Hge), (ge_one_positive _ Hge).
      destruct (zero_div_ge_one _ _ Hc Hge) as [-> | ->]; reflexivity.
Qed.

Lemma zero_cost_roi_infinite_payback_zero_witness :
  (cost_of scenario2 =? 0) = true
  /\ r_roi_percentage (computeResults scenario2) = Infinity
  /\ r_payback_months (computeResults scenario2) = 0.
Proof.
  split; [reflexivity|].
  apply (zero_cost_roi_infinite_payback_zero scenario2). reflexivity.
Defined.

(** C10: a strictly negative implementation cost is accepted and gives an
    infinite ROI percentage, never a finite one: the guard is
    [one_time_implementation_cost > 0]. *)
Theorem negative_cost_roi_infinite (i : Inputs) :
  (cost_of i <? 0) = true ->
  r_roi_percentage (computeResults i) = Infinity
  /\ is_infinity (r_roi_percentage (computeResults i)) = true.
Proof.
  intros H. rewrite (roi_guard i (ltb_zero_asym _ H)). split; reflexivity.
Qed.

Lemma negative_cost_roi_infinite_witness :
  (cost_of negative_cost <? 0) = true
  /\ r_roi_percentage (computeResults negative_cost) = Infinity.
Proof.
  split; [reflexivity|].
  apply (negative_cost_roi_infinite negative_cost). reflexivity.
Defined.

End CalcFacts.

(* ================================================================== *)
(** ** The routes: properties *)
(* ================================================================== *)

Module RouteFacts.

Import Calc Routes.

Section AnyCollection.

Context `{Collection Db}.

(** C8: a save request with no [scenario_name] is answered 400 and the
    collection is returned as it was: no scenario is built or saved. *)
Theorem save_without_name_rejected (payload : SavePayload) (db : Db) :
  p_scenario_name payload = None ->
  post_scenarios payload db = (Json 400 (Failure "Scenario name required"), db)
  /\ snd (post_scenarios payload db) = db.
Proof.
  intros Hn. unfold post_scenarios. rewrite Hn. simpl. done.
Qed.

(** The same holds for an empty name, which [!x] treats like a missing one. *)
Lemma save_with_falsy_name_rejected (payload : SavePayload) (db : Db) :
  truthy (p_scenario_name payload) = None ->
  post_scenarios payload db = (Json 400 (Failure "Scenario name required"), db).
Proof. intros Hn. unfold post_scenarios. rewrite Hn. done. Qed.



(** An identifier the collection cannot cast is answered 500, again
    without a document. *)
Lemma report_invalid_identifier (rt : Runtime) (req : ReportRequest) (db : Db)
    (to id : string) :
  truthy (email req) = Some to ->
  truthy (scenarioId req) = Some id ->
  findById id db = Throws ->
  post_report_generate rt req db = Json 500 (Failure "Report generation failed").
Proof. intros He Hi Hf. unfold post_report_generate. rewrite He, Hi, Hf. done. Qed.

(** The file name the report is sent under. *)
Lemma report_of_found (rt : Runtime) (req : ReportRequest) (db : Db)
    (to id : string) (sc : Scenario) :
  truthy (email req) = Some to ->
  truthy (scenarioId req) = Some id ->
  findById id db = Found sc ->
  let name := scenario_name (doc sc) in
  let filename := (if String.eqb name "" then "report" else name) +:+ ".pdf" in
  post_report_generate rt req db
  = if header_safe filename then Pdf filename (report_lines rt sc to)
    else NoResponse.
Proof. intros He Hi Hf. unfold post_report_generate. by rewrite He, Hi, Hf. Qed.

(** A document is produced exactly when the lookup finds a scenario
    whose file name can be set as a header. *)
Lemma report_document_iff (rt : Runtime) (req : ReportRequest) (db : Db) :
  is_document (post_report_generate rt req db) = true <->
  exists to id sc,
    truthy (email req) = Some to /\ truthy (scenarioId req) = Some id
    /\ findById id db = Found sc
    /\ header_safe ((if String.eqb (scenario_name (doc sc)) "" then "report"
                     else scenario_name (doc sc)) +:+ ".pdf") = true.
Proof.
  unfold post_report_generate.
  destruct (truthy (email req)) as [to|]; [|split; [done|intros (?&?&?&?&?); done]].
  destruct (truthy (scenarioId req)) as [id|];
    [|split; [done|intros (?&?&?&?&?&?); done]].
  destruct (findById id db) as [sc| |] eqn:Hf; cbn zeta.
  - destruct (header_safe _) eqn:Hh; cbn [is_document]; split; try done.
    + intros _. by exists to, id, sc.
    + intros (to0 & id0 & sc0 & ? & ? & Hf' & Hs). simplify_eq.
      rewrite Hf in Hf'. simplify_eq. congruence.
  - split; [done|]. intros (?&?&?&?&?&?&?). simplify_eq. congruence.
  - split; [done|]. intros (?&?&?&?&?&?&?). simplify_eq. congruence.
Qed.

End AnyCollection.

Lemma save_without_name_rejected_witness :
  p_scenario_name unnamed_payload = None
  /\ post_scenarios unnamed_payload empty_db
     = (Json 400 (Failure "Scenario name required"), empty_db).
Proof.
  split; [reflexivity|].
  apply (save_without_name_rejected unnamed_payload empty_db). reflexivity.
Defined.


(** With a name the scenario is stored under the first free identifier,
    together with the results computed from its inputs, and a report for
    that identifier is a document named after the scenario. *)
Example save_with_name_stores :
  exists sc db',
    post_scenarios named_payload empty_db = (Json 200 (Saved sc), db')
    /\ stored db' !! "64f1a2b3c4d5e6f708192a3b" = Some sc
    /\ scenario_name (doc sc) = "My_Scenario"
    /\ results (doc sc) = computeResults scenario1
    /\ exists lines,
         post_report_generate runtime0 report_request db'
         = Pdf "My_Scenario.pdf" lines
         /\ length lines = 19.
Proof.
  eexists _, _. split; [reflexivity|].
  split; [by vm_compute|]. split; [reflexivity|]. split; [reflexivity|].
  eexists. split; [by vm_compute|]. reflexivity.
Qed.

End RouteFacts.

(* ================================================================== *)
(** ** The calculator: edge behaviour *)
(* ================================================================== *)

Module CalcEdges.

Import JS Calc SFOrder BinaryRounding FloatFacts CalcFacts Pages.
Local Open Scope float_scope.

(** *** Zeros *)

Lemma sub_zero_r (x : float) : x - 0 = x.
Proof.
  apply Prim2SF_inj. rewrite sub_spec, SF_zero. unfold SF64sub.
  by destruct (Prim2SF x) as [[]|[]| |[] m e].
Qed.

Lemma sub_neg_zero_r (x : float) : Prim2SF x <> S754_zero true -> x - (-0) = x.
Proof.
  intros Hx. apply Prim2SF_inj. rewrite sub_spec.
  change (Prim2SF (-0)) with (S754_zero true). unfold SF64sub.
  by destruct (Prim2SF x) as [[]|[]| |[] m e].
Qed.

Lemma mul_zero_r (y v : float) : (v =? 0) = true -> zero_or_nan (y * v).
Proof.
  intros Hv.
  assert (exists s, Prim2SF v = S754_zero s) as [s Hs]
    by (apply eqb_zero_cases in Hv as [-> | ->]; eauto).
  assert (Prim2SF (y * v) = S754_nan \/ exists s', Prim2SF (y * v) = S754_zero s')
    as [Hn | [s' Hz]].
  { rewrite mul_spec, Hs. unfold SF64mul.
    destruct (Prim2SF y) as [sy|sy| |sy m e]; simpl; eauto. }
  - right; right. exact (float_of_SF _ _ Hn).
  - apply float_of_SF in Hz. destruct s'; [right; left | left]; exact Hz.
Qed.

Lemma mul_zero_l (z y : float) : zero_or_nan z -> zero_or_nan (z * y).
Proof.
  intros Hz.
  assert (Prim2SF z = S754_nan \/ exists s, Prim2SF z = S754_zero s) as Hsf
    by (destruct Hz as [-> | [-> | ->]]; eauto).
  assert (Prim2SF (z * y) = S754_nan \/ exists s', Prim2SF (z * y) = S754_zero s')
    as [Hn | [s' Hs']].
  { rewrite mul_spec. unfold SF64mul. destruct Hsf as [-> | [s ->]].
    - by left.
    - destruct (Prim2SF y) as [sy|sy| |sy m e]; simpl; eauto. }
  - right; right. exact (float_of_SF _ _ Hn).
  - apply float_of_SF in Hs'. destruct s'; [right; left | left]; exact Hs'.
Qed.

(** *** Below -1 *)

Lemma SFltb_neg_cases (c : positive) (ec : Z) (x : spec_float) :
  SFltb x (S754_finite true c ec) = true ->
  SFltb x (S754_finite false c ec) = true
  /\ SFltb (S754_finite false c ec) (SFabs x) = true.
Proof.
  unfold SFltb. destruct x as [[]|[]| |[] m e]; simpl; try done.
  change (Pos.compare_cont Eq m c) with (Pos.compare m c).
  change (Pos.compare_cont Eq c m) with (Pos.compare c m).
  destruct (Z.compare_spec e ec); destruct (Z.compare_spec ec e); try lia;
    destruct (Pos.compare_spec m c); destruct (Pos.compare_spec c m);
    simpl; try done; lia.
Qed.

Lemma below_minus_one (b : float) :
  (b <? -1) = true -> (b <? 1) = true /\ (1 <? abs b) = true.
Proof.
  rewrite !FloatAxioms.ltb_spec, abs_spec, SF_one.
  change (Prim2SF (-1)) with (S754_finite true 4503599627370496 (-52)).
  apply SFltb_neg_cases.
Qed.

(** *** The payback guard *)

(** X1: the guard [monthly_savings > 0] holds exactly when the monthly
    saving is not NaN: for every input whose monthly saving is a number
    the payback period before rounding is the cost divided by the
    monthly saving, and the other branch, which gives infinity, is taken
    only for NaN.  (The quotient itself can be infinite or NaN.) *)
Theorem payback_guard_only_nan (i : Inputs) :
  (0 <? monthly_savings (locals i)) = negb (is_nan (monthly_savings (locals i)))
  /\ payback_months (locals i)
     = (if is_nan (monthly_savings (locals i)) then Infinity
        else cost_of i / monthly_savings (locals i)).
Proof.
  assert (payback_months (locals i)
          = (if 0 <? monthly_savings (locals i)
             then cost_of i / monthly_savings (locals i) else Infinity)) as ->
    by reflexivity.
  assert (monthly_savings (locals i)
          = bias_and_floor (monthly_savings_raw (locals i))) as Hms by reflexivity.
  destruct (bias_and_floor_ge_one (monthly_savings_raw (locals i))) as [Hn|Hge];
    rewrite <- Hms in *.
  - rewrite Hn. apply is_nan_eq in Hn as ->. split; reflexivity.
  - rewrite (ge_one_not_nan _ Hge), (ge_one_positive _ Hge). split; reflexivity.
Qed.

(** *** No implementation cost *)

(** X2: with an implementation cost of zero the returned net saving is
    the returned cumulative saving. *)
Theorem zero_cost_net_equals_cumulative (i : Inputs) :
  (cost_of i =? 0) = true ->
  r_net_savings (computeResults i) = r_cumulative_savings (computeResults i).
Proof.
  intros Hc.
  change (r_net_savings (computeResults i))
    with (round (cumulative_savings (locals i) - cost_of i)).
  change (r_cumulative_savings (computeResults i))
    with (round (cumulative_savings (locals i))).
  set (cum := cumulative_savings (locals i)). clearbody cum.
  apply eqb_zero_cases in Hc as [-> | ->].
  - by rewrite sub_zero_r.
  - destruct (Prim2SF cum) as [[]|s|  |s m e] eqn:E;
      try (rewrite sub_neg_zero_r; [done | by rewrite E]).
    apply float_of_SF in E. rewrite E. reflexivity.
Qed.

Lemma zero_cost_net_equals_cumulative_witness :
  (cost_of small_saving =? 0) = true
  /\ r_net_savings (computeResults small_saving) = 37.62
  /\ r_net_savings (computeResults small_saving)
     = r_cumulative_savings (computeResults small_saving).
Proof.
  split; [reflexivity|]. split; [reflexivity|].
  apply (zero_cost_net_equals_cumulative small_saving). reflexivity.
Defined.

(** *** No invoices *)

(** X3: with an invoice volume of zero every monthly amount is a zero
    (or NaN, when another input is infinite or overflows), so the
    monthly saving is the floor 1.1, before and after rounding, or NaN. *)
Theorem zero_volume_reports_floor (i : Inputs) :
  (volume_of i =? 0) = true ->
  (monthly_savings (locals i) = 1.1
   /\ r_monthly_savings (computeResults i) = 1.1)
  \/ (is_nan (monthly_savings (locals i)) = true
      /\ is_nan (r_monthly_savings (computeResults i)) = true).
Proof.
  intros Hv.
  change (r_monthly_savings (computeResults i))
    with (round (monthly_savings (locals i))).
  change (monthly_savings (locals i))
    with (bias_and_floor
            ((staff_of i * wage_of i * hours_of i * volume_of i
              + ((error_rate_of i - error_rate_auto) / 100) * volume_of i
                * error_cost_of i)
             - volume_of i * automated_cost_per_invoice)).
  pose proof (mul_zero_r (staff_of i * wage_of i * hours_of i) _ Hv) as HL.
  pose proof (mul_zero_l _ (error_cost_of i)
                (mul_zero_r ((error_rate_of i - error_rate_auto) / 100) _ Hv)) as HE.
  set (L := staff_of i * wage_of i * hours_of i * volume_of i) in *.
  set (E := (error_rate_of i - error_rate_auto) / 100 * volume_of i
            * error_cost_of i) in *.
  clearbody L E.
  apply eqb_zero_cases in Hv.
  destruct Hv as [-> | ->], HL as [-> | [-> | ->]], HE as [-> | [-> | ->]];
    vm_compute; auto.
Qed.

Lemma zero_volume_reports_floor_witness :
  (volume_of scenario2 =? 0) = true
  /\ ((monthly_savings (locals scenario2) = 1.1
       /\ r_monthly_savings (computeResults scenario2) = 1.1)
      \/ (is_nan (monthly_savings (locals scenario2)) = true
          /\ is_nan (r_monthly_savings (computeResults scenario2)) = true)).
Proof.
  split; [reflexivity|].
  apply (zero_volume_reports_floor scenario2). reflexivity.
Defined.

(** *** A loss *)

(** X4: a biased monthly value below -1, a loss, is returned as a saving:
    its magnitude times 1.1 again, which is at least 1.1. *)
Theorem loss_reported_as_gain (i : Inputs) :
  let biased := monthly_savings_raw (locals i) * min_roi_boost_factor in
  (biased <? -1) = true ->
  monthly_savings (locals i) = abs biased * min_roi_boost_factor
  /\ (1.1 <=? monthly_savings (locals i)) = true.
Proof.
  intros biased Hlt. destruct (below_minus_one _ Hlt) as [H1 Habs].
  assert (monthly_savings (locals i)
          = bias_and_floor (monthly_savings_raw (locals i))) as -> by reflexivity.
  split; [|by apply bias_and_floor_floored].
  unfold bias_and_floor. fold biased. rewrite H1. unfold Math_abs.
  rewrite Math_max_one by (by apply abs_not_nan, below_one_not_nan).
  by rewrite Habs.
Qed.

Lemma loss_reported_as_gain_witness :
  (monthly_savings_raw (locals volume_only) * min_roi_boost_factor <? -1) = true
  /\ monthly_savings (locals volume_only) = 242.00000000000006.
Proof.
  split; [reflexivity|].
  apply (loss_reported_as_gain volume_only). reflexivity.
Defined.

End CalcEdges.

(* ================================================================== *)
(** ** The lookup route and the report handler: properties *)
(* ================================================================== *)

Module PageFacts.

Import Calc Routes Pages RouteFacts.

Lemma truthy_filled (s : string) : s <> "" -> truthy (Some s) = Some s.
Proof. intros Hs. simpl. by apply String.eqb_neq in Hs as ->. Qed.

Lemma castable_filled (id : string) : castable id = true -> id <> "".
Proof. by intros Hc ->. Qed.

(** The in-memory collection keeps the laws while its unused
    identifiers can be cast. *)
Lemma mem_lawful : Lawful fresh_ids.
Proof.
  split.
  - intros d [st ids clk] sc db' Hok Hs. unfold fresh_ids in Hok.
    unfold save, mem_collection, mem_save in Hs. simpl in Hok, Hs.
    destruct ids as [|id ids]; [done|]. simplify_eq.
    apply Forall_cons in Hok as [Hid _]. simpl. split; [done|].
    by apply castable_filled.
  - intros d [st ids clk] sc db' Hok Hs. unfold fresh_ids in Hok.
    unfold save, mem_collection, mem_save in Hs. simpl in Hok, Hs.
    destruct ids as [|id ids]; [done|]. simplify_eq.
    apply Forall_cons in Hok as [Hid _].
    unfold findById, mem_collection, mem_findById. cbn [_id stored].
    rewrite Hid. by rewrite lookup_insert_eq.
Qed.

Lemma empty_db_fresh : fresh_ids empty_db.
Proof. unfold fresh_ids. simpl. repeat constructor. Qed.

Section AnyCollection.

Context `{Collection Db}.

(** X6: for a request that names an e-mail address and an identifier,
    the report route and [GET /scenarios/:id] agree on a scenario that is
    found, whose report is sent when its file name can be set as a
    header and left unanswered otherwise, and on one that is not found;
    they differ on an identifier the collection cannot cast: 400
    "Invalid id" there, 500 here. *)
Theorem report_agrees_with_get (rt : Runtime) (to id : string) (db : Db) :
  to <> "" -> id <> "" ->
  let report := post_report_generate rt (mkReportRequest (Some id) (Some to)) db in
  match get_scenario id db with
  | ScenarioFound sc =>
      let filename :=
        (if String.eqb (scenario_name (doc sc)) "" then "report"
         else scenario_name (doc sc)) +:+ ".pdf" in
      report = if header_safe filename
               then Pdf filename (report_lines rt sc to)
               else NoResponse
  | Refused status message =>
      (status = 404 /\ message = Some "Not found"
       /\ report = Json 404 (Failure "Scenario not found"))
      \/ (status = 400 /\ message = Some "Invalid id"
          /\ report = Json 500 (Failure "Report generation failed"))
  end.
Proof.
  intros Hto Hid. unfold post_report_generate, get_scenario. cbn [email scenarioId].
  rewrite (truthy_filled to Hto), (truthy_filled id Hid).
  destruct (findById id db); auto.
Qed.

(** X8: a scenario name that is the empty string is refused like a
    missing one: 400, and the collection is returned as it was. *)
Theorem save_with_empty_name_rejected (payload : SavePayload) (db : Db) :
  p_scenario_name payload = Some "" ->
  post_scenarios payload db = (Json 400 (Failure "Scenario name required"), db).
Proof. intros Hn. apply save_with_falsy_name_rejected. by rewrite Hn. Qed.

(** The save route answers 200 exactly when the name is given and the
    write of the name, the inputs and the results computed from them
    succeeds. *)
Lemma post_scenarios_200_iff (payload : SavePayload) (db : Db) (sc : Scenario)
    (db' : Db) :
  post_scenarios payload db = (Json 200 (Saved sc), db') <->
  exists name,
    truthy (p_scenario_name payload) = Some name
    /\ save (mkScenarioDoc name (p_inputs payload)
                           (computeResults (p_inputs payload))) db
       = Some (sc, db').
Proof.
  unfold post_scenarios. destruct (truthy (p_scenario_name payload)) as [name|].
  - destruct (save _ db) as [[sc0 db0]|] eqn:Hs.
    + split.
      * intros [= -> ->]. by exists name.
      * intros (name' & [= <-] & Hs'). rewrite Hs in Hs'. by simplify_eq.
    + split; [done|]. intros (name' & [= <-] & Hs'). rewrite Hs in Hs'. done.
  - split; [done|]. by intros (? & ? & ?).
Qed.

(** X13: whatever the collection does, the save route never answers
    with a document or with a status other than 200, 400 and 500; an
    error comes with a message; and the answer is 200 exactly when the
    name is given and the write of the name, the inputs and the results
    computed from them succeeds. *)
Theorem save_answers (payload : SavePayload) (db : Db) :
  is_document (fst (post_scenarios payload db)) = false
  /\ (forall status body db',
        post_scenarios payload db = (Json status body, db') ->
        (status = 200 /\ exists sc, body = Saved sc)
        \/ ((status = 400 \/ status = 500) /\ exists message, body = Failure message))
  /\ (forall sc db',
        post_scenarios payload db = (Json 200 (Saved sc), db') <->
        exists name,
          truthy (p_scenario_name payload) = Some name
          /\ save (mkScenarioDoc name (p_inputs payload)
                                 (computeResults (p_inputs payload))) db
             = Some (sc, db')).
Proof.
  split; [|split; [|intros sc db'; apply post_scenarios_200_iff]].
  - unfold post_scenarios. destruct (truthy _); [|done].
    by destruct (save _ db) as [[? ?]|].
  - unfold post_scenarios. intros status body db'.
    destruct (truthy _); [|intros [= <- <- <-]; right; eauto].
    destruct (save _ db) as [[sc0 db0]|]; intros [= <- <- <-]; [left|right]; eauto.
Qed.

(** X5: the report route sends a document exactly when the e-mail
    address and the identifier are given, the identifier resolves to a
    stored scenario, and the file name made from the scenario's name can
    be set as a header. *)
Theorem report_document_exactly_when_found (rt : Runtime) (req : ReportRequest)
    (db : Db) :
  is_document (post_report_generate rt req db) = true <->
  exists to id sc,
    truthy (email req) = Some to /\ truthy (scenarioId req) = Some id
    /\ findById id db = Found sc
    /\ header_safe ((if String.eqb (scenario_name (doc sc)) "" then "report"
                     else scenario_name (doc sc)) +:+ ".pdf") = true.
Proof. apply report_document_iff. Qed.

(** X10: [handleReport] writes to the collection at most once and only
    past its two gates: with no e-mail address or no results on display
    nothing is sent, and otherwise the collection is left as the save
    route leaves it, whether or not a report follows. *)
Theorem handleReport_collection (rt : Runtime) (st : AppState) (db : Db) :
  snd (handleReport rt st db)
  = if String.eqb (address st) "" then db
    else match shown st with
         | None => db
         | Some _ => snd (post_scenarios (form st) db)
         end.
Proof.
  unfold handleReport. destruct (String.eqb (address st) ""); [done|].
  destruct (shown st); [|done].
  destruct (post_scenarios (form st) db) as [[status [msg|saved]|name blob|] db'];
    try done.
  destruct (resolves status); [|done].
  destruct (post_report_generate _ _ _) as [status' body| |]; [|done|done].
  by destruct (resolves status').
Qed.

(** X11: what [handleReport] offers as a download is a document, never
    an error body, and it offers one only past both gates and after a
    save answered 200. *)
Theorem handleReport_downloads_documents (rt : Runtime) (st : AppState) (db : Db)
    (filename : string) (received : Response) (db' : Db) :
  handleReport rt st db = (Download filename received, db') ->
  is_document received = true
  /\ address st <> ""
  /\ shown st <> None
  /\ exists sc status,
       post_scenarios (form st) db = (Json status (Saved sc), db')
       /\ resolves status = true
       /\ received = post_report_generate rt
                       (mkReportRequest (Some (_id sc)) (Some (address st))) db'.
Proof.
  unfold handleReport. destruct (String.eqb (address st) "") eqn:Ha; [done|].
  apply String.eqb_neq in Ha. destruct (shown st) as [r|]; [|done].
  destruct (post_scenarios (form st) db) as [[status [msg|saved]|name blob|] db0];
    try done.
  destruct (resolves status) eqn:Hr; [|done].
  destruct (post_report_generate _ _ _) as [status' body|name blob|] eqn:Hg;
    [|intros [= <- <- <-]; repeat split; [done|done|]; by exists saved, status
     |done].
  destruct (resolves status') eqn:Hr'; [|done]. exfalso.
  unfold post_report_generate in Hg.
  repeat (match type of Hg with
          | context [match ?x with _ => _ end] => destruct x
          | context [if ?x then _ else _] => destruct x
          end; try done);
    simplify_eq; done.
Qed.

End AnyCollection.

Section LawfulCollection.

Context `{Collection Db} (ok : Db -> Prop) (laws : Lawful ok).

(** Past the gates and after a write that succeeds, [handleReport] ends
    with the report of the scenario just saved, or fails when the file
    name cannot be set as a header; the scenario is saved either way. *)
Lemma handleReport_after_save (rt : Runtime) (st : AppState) (db : Db)
    (name : string) (sc : Scenario) (db' : Db) :
  ok db ->
  address st <> "" ->
  shown st <> None ->
  truthy (p_scenario_name (form st)) = Some name ->
  save (mkScenarioDoc name (p_inputs (form st))
                      (computeResults (p_inputs (form st)))) db = Some (sc, db') ->
  handleReport rt st db
  = (if header_safe (name +:+ ".pdf")
     then Download (name +:+ ".pdf")
            (Pdf (name +:+ ".pdf") (report_lines rt sc (address st)))
     else ReportFailed, db').
Proof.
  intros Hok Ha Hr Hn Hs.
  assert (name <> "") as Hne.
  { intros ->. destruct (p_scenario_name (form st)) as [s|]; [|done].
    simpl in Hn. destruct (String.eqb s "") eqn:E; [done|].
    by simplify_eq. }
  destruct (save_returns_doc ok laws _ _ _ _ Hok Hs) as [Hd Hid].
  pose proof (find_after_save ok laws _ _ _ _ Hok Hs) as Hf.
  assert (post_scenarios (form st) db = (Json 200 (Saved sc), db')) as Hp
    by (apply post_scenarios_200_iff; eauto).
  unfold handleReport. apply String.eqb_neq in Ha. rewrite Ha.
  destruct (shown st); [|done]. rewrite Hp.
  change (resolves 200) with true. cbn iota zeta.
  apply String.eqb_neq in Ha.
  rewrite (report_of_found rt
             (mkReportRequest (Some (_id sc)) (Some (address st))) db'
             (address st) (_id sc) sc
             (truthy_filled _ Ha) (truthy_filled _ Hid) Hf).
  rewrite Hn, Hd. cbn [scenario_name default from_option id].
  apply String.eqb_neq in Hne. rewrite Hne.
  by destruct (header_safe (name +:+ ".pdf")).
Qed.

(** X9: with an e-mail address, results on display and a name whose
    file name can be set as a header, and a write that succeeds,
    [handleReport] ends with the download of the report of the scenario
    it has just saved, named after the scenario. *)
Theorem handleReport_downloads_saved (rt : Runtime) (st : AppState) (db : Db)
    (name : string) (sc : Scenario) (db' : Db) :
  ok db ->
  address st <> "" ->
  shown st <> None ->
  truthy (p_scenario_name (form st)) = Some name ->
  header_safe (name +:+ ".pdf") = true ->
  save (mkScenarioDoc name (p_inputs (form st))
                      (computeResults (p_inputs (form st)))) db = Some (sc, db') ->
  handleReport rt st db
  = (Download (name +:+ ".pdf")
              (Pdf (name +:+ ".pdf") (report_lines rt sc (address st))), db').
Proof.
  intros Hok Ha Hr Hn Hh Hs.
  rewrite (handleReport_after_save rt st db name sc db' Hok Ha Hr Hn Hs).
  by rewrite Hh.
Qed.

End LawfulCollection.

Lemma save_of_defaults :
  post_scenarios defaults empty_db = (Json 200 (Saved first_saved), db_after_save).
Proof. reflexivity. Qed.

Lemma report_agrees_with_get_witness :
  "lead@example.com" <> "" /\ "64f1a2b3c4d5e6f708192a3b" <> ""
  /\ get_scenario "64f1a2b3c4d5e6f708192a3b" db_after_save = ScenarioFound first_saved
  /\ post_report_generate runtime0 report_request db_after_save
     = Pdf "My_Scenario.pdf" (report_lines runtime0 first_saved "lead@example.com").
Proof.
  split; [done|]. split; [done|]. split; [reflexivity|].
  exact (report_agrees_with_get runtime0 "lead@example.com"
           "64f1a2b3c4d5e6f708192a3b" db_after_save ltac:(done) ltac:(done)).
Defined.

Lemma save_with_empty_name_rejected_witness :
  p_scenario_name blank_payload = Some ""
  /\ post_scenarios blank_payload empty_db
     = (Json 400 (Failure "Scenario name required"), empty_db).
Proof.
  split; [reflexivity|].
  apply (save_with_empty_name_rejected blank_payload empty_db). reflexivity.
Defined.

Lemma handleReport_downloads_documents_witness :
  handleReport runtime0 ready_state empty_db
  = (Download "My_Scenario.pdf"
       (post_report_generate runtime0 report_request db_after_save), db_after_save)
  /\ is_document (post_report_generate runtime0 report_request db_after_save) = true.
Proof.
  assert (handleReport runtime0 ready_state empty_db
          = (Download "My_Scenario.pdf"
               (post_report_generate runtime0 report_request db_after_save),
             db_after_save)) as Hh by reflexivity.
  split; [exact Hh|].
  exact (proj1 (handleReport_downloads_documents runtime0 ready_state empty_db
                  _ _ _ Hh)).
Defined.

Lemma handleReport_downloads_saved_witness :
  fresh_ids empty_db
  /\ address ready_state <> "" /\ shown ready_state <> None
  /\ header_safe "My_Scenario.pdf" = true
  /\ handleReport runtime0 ready_state empty_db
     = (Download "My_Scenario.pdf"
          (Pdf "My_Scenario.pdf"
               (report_lines runtime0 first_saved "lead@example.com")),
        db_after_save).
Proof.
  split; [exact empty_db_fresh|]. split; [done|]. split; [done|].
  split; [reflexivity|].
  exact (handleReport_downloads_saved fresh_ids mem_lawful runtime0 ready_state
           empty_db "My_Scenario" first_saved db_after_save
           empty_db_fresh ltac:(done) ltac:(done) eq_refl eq_refl eq_refl).
Defined.

(** A name with a euro sign: the scenario is saved and the report fails. *)
Example handleReport_unsafe_name :
  exists db', handleReport runtime0 euro_state empty_db = (ReportFailed, db')
              /\ size (stored db') = 1.
Proof. eexists. split; [reflexivity|]. by vm_compute. Qed.

End PageFacts.
